(** * PyFlink sink examples: FirehoseSink/main.py and S3Sink/main.py

    A shallow embedding of the two PyFlink driver scripts.  Each script
    reads the runtime properties, declares a datagen source table and a
    sink table, and submits one INSERT statement to the table
    environment.  The scripts are modelled as functions from the outside
    world (process environment, files, install directories) to the trace
    of calls they make and the way they end. *)

From Stdlib Require Import Floats Ascii.
From stdpp Require Import gmap strings list.

Local Open Scope string_scope.
Local Set Warnings "-register-all".

(** ** Python values

    The values [json.loads] produces: [None], booleans, integers, floats,
    strings, lists, and dictionaries keyed by strings. *)

Inductive pyval : Type :=
| PNone
| PBool (b : bool)
| PInt (n : Z)
| PFloat (x : float)
| PStr (s : string)
| PList (items : list pyval)
| PDict (d : gmap string pyval).

(** The type names Python prints in its error messages. *)
Inductive pytype : Type :=
| NoneType | bool_t | int_t | float_t | str_t | list_t | dict_t.

Definition type_of (v : pyval) : pytype :=
  match v with
  | PNone => NoneType
  | PBool _ => bool_t
  | PInt _ => int_t
  | PFloat _ => float_t
  | PStr _ => str_t
  | PList _ => list_t
  | PDict _ => dict_t
  end.

Definition type_name (t : pytype) : string :=
  match t with
  | NoneType => "NoneType"
  | bool_t => "bool"
  | int_t => "int"
  | float_t => "float"
  | str_t => "str"
  | list_t => "list"
  | dict_t => "dict"
  end.

(** ** Exceptions

    The exceptions the two scripts can raise on their own: iterating or
    subscripting a value that does not allow it, a missing dictionary
    key, and what opening, reading and parsing the properties file can
    raise. *)

Inductive type_error : Type :=
| NotIterable (t : pytype)
| NotSubscriptable (t : pytype)
| BadIndex (container : pytype).

Inductive exn : Type :=
| TypeError (why : type_error)
| KeyError (key : string)
| JSONDecodeError
| UnicodeDecodeError
| ValueError
| OSError.

(** The last line of the traceback of an uncaught exception.  The text
    of [BadIndex] is that of CPython 3.11; a key is shown between single
    quotes, which is its [repr] when it holds no quote or escape; of
    the errors of reading the file only the name is kept, the rest
    depends on the file. *)
Definition exn_message (e : exn) : string :=
  match e with
  | TypeError (NotIterable t) =>
      "TypeError: '" +:+ type_name t +:+ "' object is not iterable"
  | TypeError (NotSubscriptable t) =>
      "TypeError: '" +:+ type_name t +:+ "' object is not subscriptable"
  | TypeError (BadIndex str_t) =>
      "TypeError: string indices must be integers, not 'str'"
  | TypeError (BadIndex t) =>
      "TypeError: " +:+ type_name t +:+ " indices must be integers or slices, not str"
  | KeyError k => "KeyError: '" +:+ k +:+ "'"
  | JSONDecodeError => "json.decoder.JSONDecodeError"
  | UnicodeDecodeError => "UnicodeDecodeError"
  | ValueError => "ValueError"
  | OSError => "OSError"
  end.

(** Results of pure Python expressions: an exception or a value. *)
Definition result (A : Type) : Type := exn + A.

#[export] Instance result_ret : MRet result := fun A a => inr a.

#[export] Instance result_bind : MBind result := fun A B k r =>
  match r with
  | inl e => inl e
  | inr a => k a
  end.

(** [v[key]] for a string key. *)
Definition subscript (v : pyval) (key : string) : result pyval :=
  match v with
  | PDict d =>
      match d !! key with
      | Some x => inr x
      | None => inl (KeyError key)
      end
  | PStr _ => inl (TypeError (BadIndex str_t))
  | PList _ => inl (TypeError (BadIndex list_t))
  | _ => inl (TypeError (NotSubscriptable (type_of v)))
  end.

(** The characters of a string, each as a one-character string. *)
Fixpoint chars (s : string) : list pyval :=
  match s with
  | EmptyString => []
  | String c rest => PStr (String c EmptyString) :: chars rest
  end.

(** The items a [for] loop visits.  A dictionary yields its keys; the
    two scripts subscript every item with a string at once, so the order
    of the keys is not observable in them. *)
Definition py_iter (v : pyval) : result (list pyval) :=
  match v with
  | PList items => inr items
  | PDict d => inr (PStr <$> (map_to_list d).*1)
  | PStr s => inr (chars s)
  | _ => inl (TypeError (NotIterable (type_of v)))
  end.

(** [v == s] for a string [s]. *)
Definition eq_str (v : pyval) (s : string) : bool :=
  match v with
  | PStr t => bool_decide (t = s)
  | _ => false
  end.

(** ** Calls on the outside world

    What a script does is the list of calls it makes, in order, on the
    console, on the logger and on the table environment.  The engine
    behind the table environment is not part of the scripts: the model
    follows a script against an engine that accepts its calls, so
    [execute_sql] and [wait] only record the call.  An engine that
    refuses a statement, or a wait that fails, ends a real run at that
    call with an exception of the engine.  What is proved of runs is
    therefore either about what the scripts do before their first call
    on the engine, or stated for runs that end without an exception. *)

(** A formatted string: literal text and the values put into its
    placeholders by [str.format] or an f-string. *)
Inductive piece : Type :=
| Lit (s : string)
| Fmt (v : pyval).

Definition fstring : Type := list piece.

(** The SQL the scripts submit, as the statements read. *)
Inductive sql_type : Type :=
| INT
| DOUBLE
| NUMERIC (precision scale : nat)
| TIMESTAMP (precision : nat)
| TIMESTAMP_LTZ (precision : nat).

Record column : Type := Column {
  col_name : string;
  col_type : sql_type;
  col_not_null : bool
}.

Record create_table : Type := CreateTableStmt {
  tbl_name : string;
  tbl_columns : list column;
  tbl_partitioned_by : list string;
  tbl_with : list (string * fstring)
}.

(** One item of a SELECT list: a column of the FROM table, and the name
    after [as] when there is one. *)
Record select_item : Type := SelectItem {
  sel_column : string;
  sel_alias : option string
}.

Record insert_select : Type := InsertStmt {
  ins_into : string;
  ins_select : list select_item;
  ins_from : string
}.

Inductive statement : Type :=
| CreateTable (c : create_table)
| InsertInto (i : insert_select).

Inductive event : Type :=
| Print (line : string)
| SetString (key value : string)
| LogInfo (msg : fstring)
| ExecuteSql (q : statement)
| Wait.

Definition trace : Type := list event.

(** A computation: the calls made so far and either the exception that
    stopped it or its value. *)
Definition Py (A : Type) : Type := trace * result A.

#[export] Instance py_ret : MRet Py := fun A a => ([], inr a).

#[export] Instance py_bind : MBind Py := fun A B k m =>
  match m with
  | (t, inl e) => (t, inl e)
  | (t, inr a) => let '(t', r) := k a in ((t ++ t')%list, r)
  end.

Definition emit (e : event) : Py unit := ([e], inr tt).

(** A pure expression inside a computation. *)
Definition lift {A} (r : result A) : Py A := ([], r).

Definition print (line : string) : Py unit := emit (Print line).
Definition set_string (key value : string) : Py unit := emit (SetString key value).
Definition logging_info (msg : fstring) : Py unit := emit (LogInfo msg).
Definition execute_sql (q : statement) : Py unit := emit (ExecuteSql q).
Definition wait : Py unit := emit Wait.

(** The status the interpreter exits with: 1 after an uncaught
    exception, 0 when the script runs to its end. *)
Definition exit_status {A} (o : Py A) : Z :=
  match o.2 with
  | inl _ => 1%Z
  | inr _ => 0%Z
  end.

(** The exception that ended the run, if one did. *)
Definition raised {A} (o : Py A) : option exn :=
  match o.2 with
  | inl e => Some e
  | inr _ => None
  end.

(** ** The outside world *)

(** A regular file, by what [open], [file.read] and [json.loads] make
    of it in this process (the text is decoded under the locale of the
    process): the value its text parses to; text that is not JSON, for
    which [json.loads] raises JSONDecodeError; or a file on which one of
    the three calls raises something else (UnicodeDecodeError for bytes
    the locale cannot decode, ValueError for an integer beyond the digit
    limit, OSError for a file that cannot be opened). *)
Inductive file : Type :=
| Json (v : pyval)
| NotJson
| Unreadable (e : exn).

(** The body of the [with open(...)] block. *)
Definition json_loads (f : file) : result pyval :=
  match f with
  | Json v => inr v
  | NotJson => inl JSONDecodeError
  | Unreadable e => inl e
  end.

Record world : Type := World {
  (** [os.environ] *)
  environ : gmap string string;
  (** the regular files, by the path given to [os.path.isfile] and [open],
      as this process reads them *)
  files : gmap string file;
  (** [os.path.dirname(os.path.realpath(__file__))] *)
  script_dir : string;
  (** [os.path.dirname(os.path.abspath(pyflink.__file__))] *)
  pyflink_dir : string
}.

(** [True if x else False] for the result of [os.environ.get]: [None]
    and the empty string are false, every other string is true. *)
Definition truthy (x : option string) : bool :=
  match x with
  | None => false
  | Some s => if decide (s = "") then false else true
  end.

Definition dquote : string := String "034"%char EmptyString.

(** A WITH option whose value is a literal of the script. *)
Definition opt (key value : string) : string * fstring := (key, [Lit value]).

(** ** FirehoseSink/main.py *)

Module FirehoseSink.

Definition is_local (w : world) : bool := truthy (environ w !! "IS_LOCAL").

(** The path after the module-level code has run: the assignment
    under [if is_local:] replaces the first one. *)
Definition APPLICATION_PROPERTIES_FILE_PATH (w : world) : string :=
  if is_local w then "application_properties.json"
  else "/etc/flink/application_properties.json".

(** The module-level code under [if is_local:]. *)
Definition module_level (w : world) : Py unit :=
  if is_local w then
    set_string "pipeline.jars"
      ("file:///" +:+ script_dir w +:+ "/target/pyflink-dependencies.jar");;
    print ("PyFlink home: " +:+ pyflink_dir w);;
    print ("Logging directory: " +:+ pyflink_dir w +:+ "/log")
  else mret tt.

Definition get_application_properties (w : world) : Py pyval :=
  match files w !! APPLICATION_PROPERTIES_FILE_PATH w with
  | Some f => lift (json_loads f)
  | None =>
      print ("A file at " +:+ dquote +:+ APPLICATION_PROPERTIES_FILE_PATH w
             +:+ dquote +:+ " was not found");;
      mret PNone
  end.

(** The loop of [property_map] over the items of [props]; falling off
    the end of the function returns [None]. *)
Fixpoint property_map_loop (items : list pyval) (property_group_id : string)
  : result pyval :=
  match items with
  | [] => mret PNone
  | prop :: rest =>
      id ← subscript prop "PropertyGroupId";
      if eq_str id property_group_id then subscript prop "PropertyMap"
      else property_map_loop rest property_group_id
  end.

Definition property_map (props : pyval) (property_group_id : string)
  : result pyval :=
  items ← py_iter props;
  property_map_loop items property_group_id.

Definition sensor_readings : create_table :=
  {| tbl_name := "sensor_readings";
     tbl_columns :=
       [ Column "sensor_id" INT false;
         Column "temperature" DOUBLE false;
         Column "measurement_time" (TIMESTAMP 3) false ];
     tbl_partitioned_by := ["sensor_id"];
     tbl_with :=
       [ opt "connector" "datagen";
         opt "fields.sensor_id.min" "10";
         opt "fields.sensor_id.max" "20";
         opt "fields.temperature.min" "0";
         opt "fields.temperature.max" "100" ] |}.

Definition output (output_delivery_stream_name output_delivery_stream_region : pyval)
  : create_table :=
  {| tbl_name := "output";
     tbl_columns :=
       [ Column "sensor_id" INT false;
         Column "temperature_f" DOUBLE false;
         Column "measurement_time" (TIMESTAMP 3) false ];
     tbl_partitioned_by := [];
     tbl_with :=
       [ opt "connector" "firehose";
         ("delivery-stream", [Fmt output_delivery_stream_name]);
         ("aws.region", [Fmt output_delivery_stream_region]);
         opt "format" "json";
         opt "json.timestamp-format.standard" "ISO-8601" ] |}.

Definition insert_into_output : insert_select :=
  {| ins_into := "output";
     ins_select :=
       [ SelectItem "sensor_id" None;
         SelectItem "temperature" None;
         SelectItem "measurement_time" None ];
     ins_from := "sensor_readings" |}.

Definition main (w : world) : Py unit :=
  props ← get_application_properties w;
  group ← lift (property_map props "OutputDeliveryStream0");
  output_delivery_stream_name ← lift (subscript group "stream.name");
  group' ← lift (property_map props "OutputDeliveryStream0");
  output_delivery_stream_region ← lift (subscript group' "aws.region");
  logging_info [ Lit "Output Firehose delivery stream: ";
                 Fmt output_delivery_stream_name;
                 Lit ", region: ";
                 Fmt output_delivery_stream_region ];;
  execute_sql (CreateTable sensor_readings);;
  execute_sql (CreateTable (output output_delivery_stream_name
                                   output_delivery_stream_region));;
  execute_sql (InsertInto insert_into_output);;
  if is_local w then wait else mret tt.

(** The script run as a program: the module-level code, then [main]. *)
Definition run (w : world) : Py unit := module_level w;; main w.

End FirehoseSink.

(** ** S3Sink/main.py *)

Module S3Sink.

Definition is_local (w : world) : bool := truthy (environ w !! "IS_LOCAL").

Definition APPLICATION_PROPERTIES_FILE_PATH (w : world) : string :=
  if is_local w then "application_properties.json"
  else "/etc/flink/application_properties.json".

(** The module-level code under [if is_local:]; here it also turns
    checkpointing on. *)
Definition module_level (w : world) : Py unit :=
  if is_local w then
    set_string "pipeline.jars"
      ("file:///" +:+ script_dir w +:+ "/target/pyflink-dependencies.jar");;
    print ("PyFlink home: " +:+ pyflink_dir w);;
    print ("Logging directory: " +:+ pyflink_dir w +:+ "/log");;
    set_string "execution.checkpointing.mode" "EXACTLY_ONCE";;
    set_string "execution.checkpointing.interval" "1 min"
  else mret tt.

Definition get_application_properties (w : world) : Py pyval :=
  match files w !! APPLICATION_PROPERTIES_FILE_PATH w with
  | Some f => lift (json_loads f)
  | None =>
      print ("A file at " +:+ dquote +:+ APPLICATION_PROPERTIES_FILE_PATH w
             +:+ dquote +:+ " was not found");;
      mret PNone
  end.

Fixpoint property_map_loop (items : list pyval) (property_group_id : string)
  : result pyval :=
  match items with
  | [] => mret PNone
  | prop :: rest =>
      id ← subscript prop "PropertyGroupId";
      if eq_str id property_group_id then subscript prop "PropertyMap"
      else property_map_loop rest property_group_id
  end.

Definition property_map (props : pyval) (property_group_id : string)
  : result pyval :=
  items ← py_iter props;
  property_map_loop items property_group_id.

Definition sensor_readings : create_table :=
  {| tbl_name := "sensor_readings";
     tbl_columns :=
       [ Column "sensor_id" INT false;
         Column "temperature" (NUMERIC 6 2) false;
         Column "measurement_time" (TIMESTAMP 3) false ];
     tbl_partitioned_by := ["sensor_id"];
     tbl_with :=
       [ opt "connector" "datagen";
         opt "fields.sensor_id.min" "10";
         opt "fields.sensor_id.max" "20";
         opt "fields.temperature.min" "0";
         opt "fields.temperature.max" "100" ] |}.

Definition sensors_out (s3_bucket_name : pyval) : create_table :=
  {| tbl_name := "sensors_out";
     tbl_columns :=
       [ Column "sensor_id" INT true;
         Column "temperature" (NUMERIC 6 2) true;
         Column "time" (TIMESTAMP_LTZ 3) true ];
     tbl_partitioned_by := ["sensor_id"];
     tbl_with :=
       [ opt "connector" "filesystem";
         ("path", [ Lit "s3a://"; Fmt s3_bucket_name;
                    Lit "/pyflinkl-filesink-example-output/" ]);
         opt "format" "json";
         opt "json.timestamp-format.standard" "ISO-8601";
         opt "sink.partition-commit.policy.kind" "success-file";
         opt "sink.partition-commit.delay" "1 min" ] |}.

Definition insert_into_sensors_out : insert_select :=
  {| ins_into := "sensors_out";
     ins_select :=
       [ SelectItem "sensor_id" None;
         SelectItem "temperature" None;
         SelectItem "measurement_time" (Some "time") ];
     ins_from := "sensor_readings" |}.

Definition main (w : world) : Py unit :=
  props ← get_application_properties w;
  group ← lift (property_map props "bucket");
  s3_bucket_name ← lift (subscript group "name");
  logging_info [Lit "Output bucket: "; Fmt s3_bucket_name];;
  execute_sql (CreateTable sensor_readings);;
  execute_sql (CreateTable (sensors_out s3_bucket_name));;
  execute_sql (InsertInto insert_into_sensors_out);;
  if is_local w then wait else mret tt.

Definition run (w : world) : Py unit := module_level w;; main w.

End S3Sink.

(** ** The two jobs side by side *)

Inductive job : Type := Firehose | S3.

Definition run_of (j : job) : world -> Py unit :=
  match j with
  | Firehose => FirehoseSink.run
  | S3 => S3Sink.run
  end.

Definition main_of (j : job) : world -> Py unit :=
  match j with
  | Firehose => FirehoseSink.main
  | S3 => S3Sink.main
  end.

Definition module_level_of (j : job) : world -> Py unit :=
  match j with
  | Firehose => FirehoseSink.module_level
  | S3 => S3Sink.module_level
  end.

Definition is_local_of (j : job) : world -> bool :=
  match j with
  | Firehose => FirehoseSink.is_local
  | S3 => S3Sink.is_local
  end.

Definition properties_path (j : job) : world -> string :=
  match j with
  | Firehose => FirehoseSink.APPLICATION_PROPERTIES_FILE_PATH
  | S3 => S3Sink.APPLICATION_PROPERTIES_FILE_PATH
  end.

Definition property_map_of (j : job) : pyval -> string -> result pyval :=
  match j with
  | Firehose => FirehoseSink.property_map
  | S3 => S3Sink.property_map
  end.

(** The property group [main] asks for, and the keys it reads in it, in
    the order it reads them. *)
Definition required_group (j : job) : string :=
  match j with
  | Firehose => "OutputDeliveryStream0"
  | S3 => "bucket"
  end.

Definition required_keys (j : job) : list string :=
  match j with
  | Firehose => ["stream.name"; "aws.region"]
  | S3 => ["name"]
  end.

(** ** Well-formed runtime properties

    The properties file of the service is a list of groups, each an
    object with a [PropertyGroupId] and a [PropertyMap] from strings to
    strings. *)

Record property_group : Type := PropertyGroup {
  PropertyGroupId : string;
  PropertyMap : gmap string string
}.

Definition map_to_py (m : gmap string string) : pyval := PDict (PStr <$> m).

Definition group_to_py (g : property_group) : pyval :=
  PDict (<["PropertyGroupId" := PStr (PropertyGroupId g)]>
         (<["PropertyMap" := map_to_py (PropertyMap g)]> ∅)).

Definition groups_to_py (groups : list property_group) : pyval :=
  PList (group_to_py <$> groups).

(** The first group with the given id. *)
Fixpoint first_group (id : string) (groups : list property_group)
  : option property_group :=
  match groups with
  | [] => None
  | g :: rest =>
      if bool_decide (PropertyGroupId g = id) then Some g
      else first_group id rest
  end.

(** The first of [keys] that [m] does not hold. *)
Fixpoint first_absent (keys : list string) (m : gmap string string)
  : option string :=
  match keys with
  | [] => None
  | k :: rest =>
      match m !! k with
      | Some _ => first_absent rest m
      | None => Some k
      end
  end.

(** ** Reading a run *)

Definition statements (t : trace) : list statement :=
  omap (fun e => match e with ExecuteSql q => Some q | _ => None end) t.

Definition is_wait (e : event) : bool :=
  match e with
  | Wait => true
  | _ => false
  end.

(** The run called [table_result.wait()]. *)
Definition blocks {A} (o : Py A) : bool := existsb is_wait o.1.

(** The calls of a run other than the final wait. *)
Definition without_wait (t : trace) : trace :=
  filter (fun e => is_wait e = false) t.

(** The value a run gave to a key of the table configuration, if it set
    the key (the last call wins). *)
Fixpoint setting (key : string) (t : trace) : option string :=
  match t with
  | [] => None
  | SetString k v :: rest =>
      match setting key rest with
      | Some v' => Some v'
      | None => if bool_decide (k = key) then Some v else None
      end
  | _ :: rest => setting key rest
  end.

(** The value of a WITH option of a table. *)
Fixpoint with_option (key : string) (opts : list (string * fstring))
  : option fstring :=
  match opts with
  | [] => None
  | (k, v) :: rest => if bool_decide (k = key) then Some v else with_option key rest
  end.

(** The table an INSERT writes to: the last table created under the
    name after INTO, among the statements before it. *)
Fixpoint created (name : string) (qs : list statement) : option create_table :=
  match qs with
  | [] => None
  | CreateTable c :: rest =>
      match created name rest with
      | Some c' => Some c'
      | None => if bool_decide (tbl_name c = name) then Some c else None
      end
  | _ :: rest => created name rest
  end.

(** The INSERT of a run (the last one submitted). *)
Fixpoint inserted (qs : list statement) : option insert_select :=
  match qs with
  | [] => None
  | InsertInto i :: rest =>
      match inserted rest with
      | Some i' => Some i'
      | None => Some i
      end
  | _ :: rest => inserted rest
  end.

(** The flow a run defines: the table its INSERT reads, the table it
    writes, and the INSERT. *)
Definition flow_of (j : job) (w : world)
  : option (create_table * create_table * insert_select) :=
  let qs := statements (run_of j w).1 in
  ins ← inserted qs;
  source ← created (ins_from ins) qs;
  sink ← created (ins_into ins) qs;
  Some (source, sink, ins).

(** The sink table of a run and the option of it under [key]. *)
Definition sink_table (j : job) (w : world) : option create_table :=
  f ← flow_of j w; Some f.1.2.

Definition sink_option (j : job) (key : string) (w : world) : option fstring :=
  c ← sink_table j w; with_option key (tbl_with c).

(** A tunable can be configured when two deployments can give it two
    different values. *)
Definition can_be_configured {A} (tunable : world -> option A) : Prop :=
  ∃ w1 w2 a b, tunable w1 = Some a ∧ tunable w2 = Some b ∧ a ≠ b.

(** The text a run leaves to its operator: the lines it printed and the
    last line of the traceback when an exception ended it. *)
Definition printed (t : trace) : list string :=
  omap (fun e => match e with Print line => Some line | _ => None end) t.

Definition output_text {A} (o : Py A) : list string :=
  (printed o.1 ++ match o.2 with inl e => [exn_message e] | inr _ => [] end)%list.

(** [needle] occurs in [hay]. *)
Fixpoint occurs (needle hay : string) : bool :=
  String.prefix needle hay ||
  match hay with
  | EmptyString => false
  | String _ rest => occurs needle rest
  end.

Definition mentions {A} (name : string) (o : Py A) : bool :=
  existsb (occurs name) (output_text o).

(** ** Rows and the shape of an INSERT

    Whether a row fits [INSERT INTO sink SELECT items FROM source]: each
    item of the SELECT list names a field of the row, and there is one
    item for each column of the sink, taken by position.  This is about
    names and counts only: the values are left abstract, and what the
    engine writes for them, with its casts, is not modelled. *)






Fixpoint column_type (name : string) (cols : list column) : option sql_type :=
  match cols with
  | [] => None
  | c :: rest =>
      if bool_decide (col_name c = name) then Some (col_type c)
      else column_type name rest
  end.

(** ** What a run looks like

    The values [main] reads from the properties file, and the calls it
    makes once it has them. *)

Definition firehose_config (f : file) : result (pyval * pyval) :=
  props ← json_loads f;
  group ← FirehoseSink.property_map props "OutputDeliveryStream0";
  name ← subscript group "stream.name";
  region ← subscript group "aws.region";
  mret (name, region).

Definition s3_config (f : file) : result pyval :=
  props ← json_loads f;
  group ← S3Sink.property_map props "bucket";
  subscript group "name".

Definition firehose_flow (name region : pyval) : trace :=
  [ LogInfo [ Lit "Output Firehose delivery stream: "; Fmt name;
              Lit ", region: "; Fmt region ];
    ExecuteSql (CreateTable FirehoseSink.sensor_readings);
    ExecuteSql (CreateTable (FirehoseSink.output name region));
    ExecuteSql (InsertInto FirehoseSink.insert_into_output) ].

Definition s3_flow (bucket : pyval) : trace :=
  [ LogInfo [Lit "Output bucket: "; Fmt bucket];
    ExecuteSql (CreateTable S3Sink.sensor_readings);
    ExecuteSql (CreateTable (S3Sink.sensors_out bucket));
    ExecuteSql (InsertInto S3Sink.insert_into_sensors_out) ].

Definition waiting (local : bool) : trace := if local then [Wait] else [].

(** The calls of [main] between reading the properties and the final
    branch on [is_local], when the properties hold what it reads. *)
Definition main_flow (j : job) (f : file) : result trace :=
  match j with
  | Firehose => c ← firehose_config f; mret (firehose_flow c.1 c.2)
  | S3 => bucket ← s3_config f; mret (s3_flow bucket)
  end.

Definition not_found_line (path : string) : string :=
  "A file at " +:+ dquote +:+ path +:+ dquote +:+ " was not found".

(** The map of a group found by [first_group], or [None]. *)
Definition group_map_or_none (o : option property_group) : pyval :=
  match o with
  | Some g => map_to_py (PropertyMap g)
  | None => PNone
  end.

(** The same world with one environment variable set. *)
Definition set_env (name value : string) (w : world) : world :=
  {| environ := <[name := value]> (environ w);
     files := files w;
     script_dir := script_dir w;
     pyflink_dir := pyflink_dir w |}.

(** ** Ways for the runtime configuration to be missing *)

Inductive problem : Type :=
| FileMissing
| GroupAbsent
| KeyAbsent (key : string).

Definition missing (j : job) (w : world) (p : problem) : Prop :=
  match p with
  | FileMissing => files w !! properties_path j w = None
  | GroupAbsent =>
      ∃ groups,
        files w !! properties_path j w = Some (Json (groups_to_py groups)) ∧
        first_group (required_group j) groups = None
  | KeyAbsent k =>
      ∃ groups g,
        files w !! properties_path j w = Some (Json (groups_to_py groups)) ∧
        first_group (required_group j) groups = Some g ∧
        first_absent (required_keys j) (PropertyMap g) = Some k
  end.

(** The run ends with a non-zero status before any statement is
    submitted, and its output names the file, the group or a key that
    is missing. *)
Definition fails_naming_what_is_missing (j : job) (w : world) : Prop :=
  exit_status (run_of j w) ≠ 0%Z ∧
  statements (run_of j w).1 = [] ∧
  ∃ name,
    name ∈ properties_path j w :: required_group j :: required_keys j ∧
    mentions name (run_of j w) = true.

(** ** Example worlds *)

Definition cluster (groups : list property_group) : world :=
  {| environ := ∅;
     files := {[ "/etc/flink/application_properties.json" := Json (groups_to_py groups) ]};
     script_dir := "/opt/job";
     pyflink_dir := "/opt/pyflink" |}.

Definition laptop (groups : list property_group) : world :=
  {| environ := {[ "IS_LOCAL" := "true" ]};
     files := {[ "application_properties.json" := Json (groups_to_py groups) ]};
     script_dir := "/home/dev/job";
     pyflink_dir := "/home/dev/venv/pyflink" |}.

Definition laptop_without_file : world :=
  {| environ := {[ "IS_LOCAL" := "true" ]};
     files := ∅;
     script_dir := "/home/dev/job";
     pyflink_dir := "/home/dev/venv/pyflink" |}.

Definition firehose_group : property_group :=
  {| PropertyGroupId := "OutputDeliveryStream0";
     PropertyMap := {[ "stream.name" := "ExampleOutput"; "aws.region" := "us-east-1" ]} |}.

Definition bucket_group : property_group :=
  {| PropertyGroupId := "bucket";
     PropertyMap := {[ "name" := "my-bucket" ]} |}.

(** ** Items of a properties list, as the loop of [property_map] meets them *)

(** The value an item holds under [PropertyGroupId], when it is an
    object that has one. *)
Definition group_id (x : pyval) : option pyval :=
  match x with
  | PDict d => d !! "PropertyGroupId"
  | _ => None
  end.

(** The loop goes past the item: it has an id, and it is not the one
    asked for. *)
Definition passes_over (id : string) (x : pyval) : bool :=
  match group_id x with
  | Some v => negb (eq_str v id)
  | None => false
  end.

(** The loop returns at the item: its id is the one asked for. *)
Definition is_match (id : string) (x : pyval) : bool :=
  match group_id x with
  | Some v => eq_str v id
  | None => false
  end.

Definition get_application_properties_of (j : job) : world -> Py pyval :=
  match j with
  | Firehose => FirehoseSink.get_application_properties
  | S3 => S3Sink.get_application_properties
  end.

(** The keys a run set in the table configuration, in order, and the
    messages it logged. *)
Definition settings (t : trace) : list (string * string) :=
  omap (fun e => match e with SetString k v => Some (k, v) | _ => None end) t.

Definition logged (t : trace) : list fstring :=
  omap (fun e => match e with LogInfo m => Some m | _ => None end) t.

(** A properties file whose top-level value holds no list of groups,
    with the exception [main] ends on: a file that cannot be read, or
    text that is not JSON; a scalar, which cannot be iterated; an empty
    list, object or string, in which no group is found; an object or
    string that is not empty, whose items are strings. *)
Definition unusable (f : file) : option exn :=
  match f with
  | NotJson => Some JSONDecodeError
  | Unreadable e => Some e
  | Json (PList []) => Some (TypeError (NotSubscriptable NoneType))
  | Json (PList _) => None
  | Json (PDict d) =>
      if bool_decide (size d = 0)
      then Some (TypeError (NotSubscriptable NoneType))
      else Some (TypeError (BadIndex str_t))
  | Json (PStr s) =>
      if bool_decide (s = "")
      then Some (TypeError (NotSubscriptable NoneType))
      else Some (TypeError (BadIndex str_t))
  | Json v => Some (TypeError (NotIterable (type_of v)))
  end.

(** A table names its columns once and partitions by columns it has. *)
Definition well_formed_table (t : create_table) : bool :=
  bool_decide (NoDup (col_name <$> tbl_columns t)) &&
  forallb (fun c => bool_decide (is_Some (column_type c (tbl_columns t))))
          (tbl_partitioned_by t).

(** An INSERT fits its tables: it reads [source] and writes [sink],
    two different tables; every selected column is a column of [source];
    there are as many selected columns as columns of [sink]; and a name
    given after [as] is the name of the sink column at that place. *)
Definition well_formed_flow (source sink : create_table) (ins : insert_select) : bool :=
  well_formed_table source && well_formed_table sink &&
  bool_decide (ins_from ins = tbl_name source) &&
  bool_decide (ins_into ins = tbl_name sink) &&
  bool_decide (tbl_name source ≠ tbl_name sink) &&
  forallb (fun it => bool_decide (is_Some (column_type (sel_column it) (tbl_columns source))))
          (ins_select ins) &&
  bool_decide (length (ins_select ins) = length (tbl_columns sink)) &&
  forallb (fun p => match sel_alias p.1 with
                    | Some a => bool_decide (a = col_name p.2)
                    | None => true
                    end)
          (zip (ins_select ins) (tbl_columns sink)).

(** The same world with one more file. *)
Definition add_file (path : string) (f : file) (w : world) : world :=
  {| environ := environ w;
     files := <[path := f]> (files w);
     script_dir := script_dir w;
     pyflink_dir := pyflink_dir w |}.

(** * Properties *)

(** ** Lookups in well-formed properties *)

Lemma subscript_group_id g :
  subscript (group_to_py g) "PropertyGroupId" = inr (PStr (PropertyGroupId g)).
Proof. unfold subscript, group_to_py. by rewrite lookup_insert_eq. Qed.

Lemma subscript_group_map g :
  subscript (group_to_py g) "PropertyMap" = inr (map_to_py (PropertyMap g)).
Proof.
  unfold subscript, group_to_py.
  rewrite lookup_insert_ne by done. by rewrite lookup_insert_eq.
Qed.

Lemma subscript_map m k :
  subscript (map_to_py m) k
  = match m !! k with Some s => inr (PStr s) | None => inl (KeyError k) end.
Proof. unfold subscript, map_to_py. rewrite lookup_fmap. by destruct (m !! k). Qed.

Lemma subscript_none k :
  subscript PNone k = inl (TypeError (NotSubscriptable NoneType)).
Proof. reflexivity. Qed.

Lemma firehose_loop_groups groups id :
  FirehoseSink.property_map_loop (group_to_py <$> groups) id
  = inr (group_map_or_none (first_group id groups)).
Proof.
  induction groups as [|g groups IH]; [done|].
  cbn [fmap list_fmap FirehoseSink.property_map_loop first_group].
  rewrite subscript_group_id. cbn.
  case_bool_decide; [apply subscript_group_map | apply IH].
Qed.

Lemma s3_loop_groups groups id :
  S3Sink.property_map_loop (group_to_py <$> groups) id
  = inr (group_map_or_none (first_group id groups)).
Proof.
  induction groups as [|g groups IH]; [done|].
  cbn [fmap list_fmap S3Sink.property_map_loop first_group].
  rewrite subscript_group_id. cbn.
  case_bool_decide; [apply subscript_group_map | apply IH].
Qed.

Lemma property_map_groups j groups id :
  property_map_of j (groups_to_py groups) id
  = inr (group_map_or_none (first_group id groups)).
Proof.
  destruct j; [apply firehose_loop_groups | apply s3_loop_groups].
Qed.

(** ** The shape of a run *)

Lemma firehose_main_no_file w :
  files w !! FirehoseSink.APPLICATION_PROPERTIES_FILE_PATH w = None ->
  FirehoseSink.main w
  = ([Print (not_found_line (FirehoseSink.APPLICATION_PROPERTIES_FILE_PATH w))],
     inl (TypeError (NotIterable NoneType))).
Proof.
  intros H. unfold FirehoseSink.main, FirehoseSink.get_application_properties.
  rewrite H. reflexivity.
Qed.

Lemma firehose_main_file w f :
  files w !! FirehoseSink.APPLICATION_PROPERTIES_FILE_PATH w = Some f ->
  FirehoseSink.main w
  = match firehose_config f with
    | inl e => ([], inl e)
    | inr (name, region) =>
        ((firehose_flow name region ++ waiting (FirehoseSink.is_local w))%list, inr tt)
    end.
Proof.
  intros H.
  unfold FirehoseSink.main, FirehoseSink.get_application_properties, firehose_config.
  rewrite H. destruct (json_loads f) as [e|props]; [done|]. cbn.
  destruct (FirehoseSink.property_map props _) as [e|group]; [done|]. cbn.
  destruct (subscript group "stream.name") as [e|name]; [done|]. cbn.
  destruct (subscript group "aws.region") as [e|region]; [done|]. cbn.
  by destruct (FirehoseSink.is_local w).
Qed.

Lemma s3_main_no_file w :
  files w !! S3Sink.APPLICATION_PROPERTIES_FILE_PATH w = None ->
  S3Sink.main w
  = ([Print (not_found_line (S3Sink.APPLICATION_PROPERTIES_FILE_PATH w))],
     inl (TypeError (NotIterable NoneType))).
Proof.
  intros H. unfold S3Sink.main, S3Sink.get_application_properties.
  rewrite H. reflexivity.
Qed.

Lemma s3_main_file w f :
  files w !! S3Sink.APPLICATION_PROPERTIES_FILE_PATH w = Some f ->
  S3Sink.main w
  = match s3_config f with
    | inl e => ([], inl e)
    | inr bucket => ((s3_flow bucket ++ waiting (S3Sink.is_local w))%list, inr tt)
    end.
Proof.
  intros H. unfold S3Sink.main, S3Sink.get_application_properties, s3_config.
  rewrite H. destruct (json_loads f) as [e|props]; [done|]. cbn.
  destruct (S3Sink.property_map props _) as [e|group]; [done|]. cbn.
  destruct (subscript group "name") as [e|bucket]; [done|]. cbn.
  by destruct (S3Sink.is_local w).
Qed.

Section Shape.

Variables (j : job) (w : world).

(** Both module-level blocks are one branch on [is_local]. *)
Ltac by_mode :=
  destruct j; cbn;
  [ unfold FirehoseSink.module_level; by destruct (FirehoseSink.is_local w)
  | unfold S3Sink.module_level; by destruct (S3Sink.is_local w) ].

(** The module-level code never fails, submits no statement and does
    not wait. *)
Lemma module_level_ok : (module_level_of j w).2 = inr tt.
Proof. by_mode. Qed.

Lemma module_level_statements : statements (module_level_of j w).1 = [].
Proof. by_mode. Qed.

Lemma module_level_no_wait : existsb is_wait (module_level_of j w).1 = false.
Proof. by_mode. Qed.

(** A run is the module-level calls followed by those of [main]. *)
Lemma run_split :
  run_of j w = (((module_level_of j w).1 ++ (main_of j w).1)%list, (main_of j w).2).
Proof.
  pose proof module_level_ok as H.
  destruct j; cbn in *.
  - unfold FirehoseSink.run. destruct (FirehoseSink.module_level w) as [t r].
    cbn in H. subst r. cbn. by destruct (FirehoseSink.main w).
  - unfold S3Sink.run. destruct (S3Sink.module_level w) as [t r].
    cbn in H. subst r. cbn. by destruct (S3Sink.main w).
Qed.

(** [main] by cases on the properties file and on what it holds. *)
Lemma main_cases :
  main_of j w
  = match files w !! properties_path j w with
    | None =>
        ([Print (not_found_line (properties_path j w))],
         inl (TypeError (NotIterable NoneType)))
    | Some f =>
        match main_flow j f with
        | inl e => ([], inl e)
        | inr t => ((t ++ waiting (is_local_of j w))%list, inr tt)
        end
    end.
Proof.
  destruct (files w !! properties_path j w) as [f|] eqn:Hf; destruct j; cbn in *.
  - rewrite (firehose_main_file w f Hf).
    by destruct (firehose_config f) as [e|[name region]].
  - rewrite (s3_main_file w f Hf). by destruct (s3_config f).
  - by apply firehose_main_no_file.
  - by apply s3_main_no_file.
Qed.

End Shape.

Lemma main_flow_statements j f t :
  main_flow j f = inr t -> statements t ≠ [] ∧ existsb is_wait t = false.
Proof.
  destruct j; cbn.
  - destruct (firehose_config f) as [e|c]; [done|]. cbn. by intros [= <-].
  - destruct (s3_config f) as [e|b]; [done|]. cbn. by intros [= <-].
Qed.

(** A run that ends without an exception found its file and its
    values, and made the calls of the flow. *)
Lemma run_ok_inv j w :
  raised (run_of j w) = None ->
  ∃ f t,
    files w !! properties_path j w = Some f ∧ main_flow j f = inr t ∧
    main_of j w = ((t ++ waiting (is_local_of j w))%list, inr tt).
Proof.
  rewrite run_split, main_cases. unfold raised. cbn.
  destruct (files w !! properties_path j w) as [f|]; [|done].
  destruct (main_flow j f) as [e|t] eqn:Ht; [done|]. eauto.
Qed.

(** A run that fails submits nothing and does not wait. *)
Lemma run_failed j w e :
  (main_of j w).2 = inl e ->
  exit_status (run_of j w) = 1%Z ∧ statements (run_of j w).1 = [] ∧
  blocks (run_of j w) = false.
Proof.
  intros He. rewrite run_split. unfold exit_status, blocks. cbn. rewrite He.
  split; [done|]. unfold statements. rewrite omap_app, existsb_app.
  fold (statements (module_level_of j w).1) (statements (main_of j w).1).
  rewrite module_level_statements, module_level_no_wait.
  revert He. rewrite main_cases.
  destruct (files w !! properties_path j w) as [f|]; [|done].
  by destruct (main_flow j f).
Qed.

Lemma firehose_config_inv f name region :
  firehose_config f = inr (name, region) ->
  ∃ props group,
    f = Json props ∧
    FirehoseSink.property_map props "OutputDeliveryStream0" = inr group ∧
    subscript group "stream.name" = inr name ∧
    subscript group "aws.region" = inr region.
Proof.
  unfold firehose_config. destruct f as [props| |e]; [|done..]. cbn.
  destruct (FirehoseSink.property_map props _) as [e|group] eqn:Hg; [done|]. cbn.
  destruct (subscript group "stream.name") as [e|n] eqn:Hn; [done|]. cbn.
  destruct (subscript group "aws.region") as [e|r] eqn:Hr; [done|]. cbn.
  intros [= <- <-]. by exists props, group.
Qed.

Lemma s3_config_inv f bucket :
  s3_config f = inr bucket ->
  ∃ props group,
    f = Json props ∧
    S3Sink.property_map props "bucket" = inr group ∧
    subscript group "name" = inr bucket.
Proof.
  unfold s3_config. destruct f as [props| |e]; [|done..]. cbn.
  destruct (S3Sink.property_map props _) as [e|group] eqn:Hg; [done|]. cbn.
  intros H. by exists props, group.
Qed.

(** ** Text search *)

Lemma append_cons c (s t : string) : String c s +:+ t = String c (s +:+ t).
Proof. reflexivity. Qed.

Lemma append_nil (t : string) : EmptyString +:+ t = t.
Proof. reflexivity. Qed.

Lemma prefix_app (n rest : string) : String.prefix n (n +:+ rest) = true.
Proof.
  induction n as [|c n IH].
  - by destruct rest.
  - rewrite append_cons. cbn. destruct (Ascii.ascii_dec c c); [apply IH | done].
Qed.

Lemma append_assoc (a b c : string) : (a +:+ b) +:+ c = a +:+ b +:+ c.
Proof.
  induction a as [|x a IH]; [done|]. by rewrite !append_cons, IH.
Qed.

Lemma occurs_here (n hay : string) : String.prefix n hay = true -> occurs n hay = true.
Proof. intros H. destruct hay; cbn [occurs]; by rewrite H. Qed.

Lemma occurs_app (before n rest : string) :
  occurs n (before +:+ n +:+ rest) = true.
Proof.
  induction before as [|c before IH].
  - rewrite append_nil. apply occurs_here, prefix_app.
  - rewrite append_cons. cbn [occurs]. rewrite IH. apply orb_true_r.
Qed.

Lemma occurs_app2 (a b n rest : string) :
  occurs n (a +:+ b +:+ n +:+ rest) = true.
Proof. rewrite <- append_assoc. apply occurs_app. Qed.

(** ** Local mode *)

Lemma truthy_true (x : option string) :
  truthy x = true ↔ ∃ s, x = Some s ∧ s ≠ "".
Proof.
  unfold truthy. destruct x as [s|].
  - case_decide; split; try done.
    + intros (s' & [= <-] & Hs). done.
    + intros _. by exists s.
  - split; [done | by intros (s & H & _)].
Qed.

Lemma is_local_truthy j w : is_local_of j w = truthy (environ w !! "IS_LOCAL").
Proof. by destruct j. Qed.

(** C10: in both jobs local mode is on exactly when the environment
    variable IS_LOCAL is set to a non-empty string; it is off when the
    variable is unset or empty, and the values "false" and "0" turn it
    on like any other non-empty value. *)
Theorem is_local_iff_nonempty (j : job) (w : world) :
  (is_local_of j w = true ↔ ∃ s, environ w !! "IS_LOCAL" = Some s ∧ s ≠ "") ∧
  (is_local_of j w = false ↔
     environ w !! "IS_LOCAL" = None ∨ environ w !! "IS_LOCAL" = Some "") ∧
  is_local_of j (set_env "IS_LOCAL" "false" w) = true ∧
  is_local_of j (set_env "IS_LOCAL" "0" w) = true.
Proof.
  rewrite !is_local_truthy. split; [apply truthy_true|]. split.
  - unfold truthy. destruct (environ w !! "IS_LOCAL") as [s|].
    + case_decide as Hs.
      * subst s. split; auto.
      * split; [done|]. intros [H|[= H]]; [done | by destruct Hs].
    + split; auto.
  - cbn. by rewrite !lookup_insert_eq.
Qed.

(** ** Looking a group up *)

Lemma missing_group_flow j groups :
  first_group (required_group j) groups = None ->
  main_flow j (Json (groups_to_py groups))
  = inl (TypeError (NotSubscriptable NoneType)).
Proof.
  intros H. destruct j; cbn in H; unfold main_flow.
  - unfold firehose_config. cbn -[FirehoseSink.property_map].
    by rewrite (property_map_groups Firehose), H.
  - unfold s3_config. cbn -[S3Sink.property_map].
    by rewrite (property_map_groups S3), H.
Qed.

Lemma missing_key_flow j groups g k :
  first_group (required_group j) groups = Some g ->
  first_absent (required_keys j) (PropertyMap g) = Some k ->
  main_flow j (Json (groups_to_py groups)) = inl (KeyError k).
Proof.
  intros Hg Hk. destruct j; cbn in Hg, Hk; unfold main_flow.
  - unfold firehose_config. cbn -[FirehoseSink.property_map].
    rewrite (property_map_groups Firehose), Hg. cbn -[subscript].
    rewrite !subscript_map.
    destruct (PropertyMap g !! "stream.name"); [|by injection Hk as <-]. cbn.
    destruct (PropertyMap g !! "aws.region"); [done | by injection Hk as <-].
  - unfold s3_config. cbn -[S3Sink.property_map].
    rewrite (property_map_groups S3), Hg. cbn -[subscript].
    rewrite !subscript_map.
    destruct (PropertyMap g !! "name"); [done | by injection Hk as <-].
Qed.

(** C9: on a list of property groups [property_map] returns the map of
    the first group whose id is the one asked for, and [None] when
    there is none; so when the file is there but holds no group of the
    id [main] asks for, the run stops on subscripting [None], with a
    TypeError and without any call of [main]. *)
Theorem property_map_first_match (j : job) (groups : list property_group) (id : string) :
  property_map_of j (groups_to_py groups) id
  = inr (group_map_or_none (first_group id groups)) ∧
  ∀ w,
    files w !! properties_path j w = Some (Json (groups_to_py groups)) ->
    first_group (required_group j) groups = None ->
    property_map_of j (groups_to_py groups) (required_group j) = inr PNone ∧
    run_of j w = ((module_level_of j w).1, inl (TypeError (NotSubscriptable NoneType))).
Proof.
  split; [apply property_map_groups|]. intros w Hf Hg. split.
  - by rewrite property_map_groups, Hg.
  - rewrite run_split, main_cases, Hf, (missing_group_flow j groups Hg).
    cbn. by rewrite app_nil_r.
Qed.

Lemma property_map_first_match_witness :
  files (cluster [bucket_group]) !! properties_path Firehose (cluster [bucket_group])
  = Some (Json (groups_to_py [bucket_group])) ∧
  first_group (required_group Firehose) [bucket_group] = None ∧
  property_map_of Firehose (groups_to_py [bucket_group]) "bucket"
  = inr (map_to_py (PropertyMap bucket_group)) ∧
  run_of Firehose (cluster [bucket_group])
  = ([], inl (TypeError (NotSubscriptable NoneType))).
Proof.
  assert (Hf : files (cluster [bucket_group])
               !! properties_path Firehose (cluster [bucket_group])
               = Some (Json (groups_to_py [bucket_group]))) by reflexivity.
  assert (Hg : first_group (required_group Firehose) [bucket_group] = None)
    by reflexivity.
  split; [exact Hf|]. split; [exact Hg|]. split.
  - exact (proj1 (property_map_first_match Firehose [bucket_group] "bucket")).
  - exact (proj2 (proj2 (property_map_first_match Firehose [bucket_group] "bucket")
                    (cluster [bucket_group]) Hf Hg)).
Defined.

(** ** Missing configuration *)

Lemma printed_app (t u : trace) :
  printed (t ++ u)%list = (printed t ++ printed u)%list.
Proof. apply omap_app. Qed.

Lemma printed_print (line : string) : printed [Print line] = [line].
Proof. reflexivity. Qed.

Lemma mentions_not_found {A} (path : string) (t : trace) (r : result A) :
  mentions path ((t ++ [Print (not_found_line path)])%list, r) = true.
Proof.
  unfold mentions, output_text. cbn [fst snd].
  rewrite printed_app, !existsb_app, printed_print. cbn [existsb].
  unfold not_found_line. rewrite occurs_app2. cbn. by rewrite orb_true_r.
Qed.

Lemma mentions_key_error {A} (k : string) (t : trace) :
  mentions k (t, @inl exn A (KeyError k)) = true.
Proof.
  unfold mentions, output_text. cbn [fst snd]. rewrite existsb_app.
  cbn [existsb exn_message]. rewrite occurs_app. cbn. by rewrite orb_true_r.
Qed.

(** C1, as the code has it: when the properties file, the group or a key
    is missing, the run ends with status 1 before any statement is
    submitted and without waiting.  A missing file is reported by a
    printed line that names its path, and the run then stops on
    iterating [None]; a missing key stops it with a KeyError that names
    the key; a missing group stops it on subscripting [None], with the
    fixed text of that TypeError, which names neither the group nor a
    key. *)
Theorem missing_configuration_ends_run (j : job) (w : world) (p : problem) :
  missing j w p ->
  exit_status (run_of j w) = 1%Z ∧
  statements (run_of j w).1 = [] ∧
  blocks (run_of j w) = false ∧
  match p with
  | FileMissing =>
      run_of j w = (((module_level_of j w).1
                  ++ [Print (not_found_line (properties_path j w))])%list,
                 inl (TypeError (NotIterable NoneType))) ∧
      mentions (properties_path j w) (run_of j w) = true
  | GroupAbsent =>
      run_of j w = ((module_level_of j w).1, inl (TypeError (NotSubscriptable NoneType))) ∧
      exn_message (TypeError (NotSubscriptable NoneType))
      = "TypeError: 'NoneType' object is not subscriptable" ∧
      existsb (fun name => occurs name (exn_message (TypeError (NotSubscriptable NoneType))))
        (required_group j :: required_keys j) = false
  | KeyAbsent k =>
      run_of j w = ((module_level_of j w).1, inl (KeyError k)) ∧
      mentions k (run_of j w) = true
  end.
Proof.
  intros Hp.
  assert (Hrun : ∃ t e, main_of j w = (t, inl e) ∧
            match p with
            | FileMissing =>
                t = [Print (not_found_line (properties_path j w))] ∧
                e = TypeError (NotIterable NoneType)
            | GroupAbsent => t = [] ∧ e = TypeError (NotSubscriptable NoneType)
            | KeyAbsent k => t = [] ∧ e = KeyError k
            end).
  { rewrite main_cases. destruct p as [| |k]; cbn in Hp.
    - rewrite Hp. eauto.
    - destruct Hp as (groups & -> & Hg).
      rewrite (missing_group_flow j groups Hg). eauto.
    - destruct Hp as (groups & g & -> & Hg & Hk).
      rewrite (missing_key_flow j groups g k Hg Hk). eauto. }
  destruct Hrun as (t & e & Hmain & Hshape).
  destruct (run_failed j w e) as (Hs & Hq & Hb); [by rewrite Hmain|].
  split; [done|]. split; [done|]. split; [done|].
  rewrite run_split, Hmain. cbn [fst snd].
  destruct p as [| |k]; destruct Hshape as [-> ->].
  - split; [done | apply mentions_not_found].
  - rewrite app_nil_r. split; [done|]. split; [done | by destruct j].
  - rewrite app_nil_r. split; [done | apply mentions_key_error].
Qed.

Lemma missing_configuration_ends_run_witness :
  missing S3 laptop_without_file FileMissing ∧
  exit_status (run_of S3 laptop_without_file) = 1%Z ∧
  statements (run_of S3 laptop_without_file).1 = [] ∧
  mentions "application_properties.json" (run_of S3 laptop_without_file) = true.
Proof.
  assert (H : missing S3 laptop_without_file FileMissing) by reflexivity.
  pose proof (missing_configuration_ends_run S3 laptop_without_file FileMissing H)
    as (Hs & Hq & _ & _ & Hm).
  split; [exact H|]. split; [exact Hs|]. split; [exact Hq | exact Hm].
Defined.

(** C1 as it is stated fails when the file is there without the group:
    the Firehose job on a cluster whose properties hold only the group
    [bucket] ends with the TypeError of subscripting [None], and nothing
    in its output names the path, the group or a key. *)
Lemma absent_group_is_not_named :
  missing Firehose (cluster [bucket_group]) GroupAbsent ∧
  output_text (run_of Firehose (cluster [bucket_group]))
  = ["TypeError: 'NoneType' object is not subscriptable"] ∧
  ¬ fails_naming_what_is_missing Firehose (cluster [bucket_group]).
Proof.
  split; [by exists [bucket_group]|]. split; [reflexivity|].
  intros (_ & _ & name & Hin & Hm).
  repeat (apply elem_of_cons in Hin as [->|Hin]); [..|by apply elem_of_nil in Hin];
    vm_compute in Hm; discriminate.
Qed.

(** ** The statements of a run *)

Lemma statements_app (t u : trace) :
  statements (t ++ u)%list = (statements t ++ statements u)%list.
Proof. apply omap_app. Qed.

Lemma statements_waiting b : statements (waiting b) = [].
Proof. by destruct b. Qed.

Lemma statements_run j w :
  statements (run_of j w).1
  = match files w !! properties_path j w with
    | Some f =>
        match main_flow j f with
        | inr t => statements t
        | inl _ => []
        end
    | None => []
    end.
Proof.
  rewrite run_split. cbn [fst]. rewrite statements_app, module_level_statements.
  rewrite main_cases. cbn [app].
  destruct (files w !! properties_path j w) as [f|]; [|done].
  destruct (main_flow j f) as [e|t]; [done|]. cbn [fst].
  by rewrite statements_app, statements_waiting, app_nil_r.
Qed.

Lemma firehose_flow_of w f name region :
  files w !! properties_path Firehose w = Some f ->
  firehose_config f = inr (name, region) ->
  flow_of Firehose w
  = Some (FirehoseSink.sensor_readings, FirehoseSink.output name region,
          FirehoseSink.insert_into_output).
Proof.
  intros Hf Hc. unfold flow_of. rewrite statements_run, Hf.
  unfold main_flow. rewrite Hc. reflexivity.
Qed.

Lemma s3_flow_of w f bucket :
  files w !! properties_path S3 w = Some f ->
  s3_config f = inr bucket ->
  flow_of S3 w
  = Some (S3Sink.sensor_readings, S3Sink.sensors_out bucket,
          S3Sink.insert_into_sensors_out).
Proof.
  intros Hf Hc. unfold flow_of. rewrite statements_run, Hf.
  unfold main_flow. rewrite Hc. reflexivity.
Qed.

Lemma firehose_ok_inv w :
  raised (run_of Firehose w) = None ->
  ∃ f name region,
    files w !! properties_path Firehose w = Some f ∧
    firehose_config f = inr (name, region) ∧
    main_of Firehose w
    = ((firehose_flow name region ++ waiting (is_local_of Firehose w))%list, inr tt).
Proof.
  intros H. destruct (run_ok_inv Firehose w H) as (f & t & Hf & Ht & Hm).
  unfold main_flow in Ht.
  destruct (firehose_config f) as [e|[name region]] eqn:Hc; [done|].
  injection Ht as <-. by exists f, name, region.
Qed.

Lemma s3_ok_inv w :
  raised (run_of S3 w) = None ->
  ∃ f bucket,
    files w !! properties_path S3 w = Some f ∧
    s3_config f = inr bucket ∧
    main_of S3 w = ((s3_flow bucket ++ waiting (is_local_of S3 w))%list, inr tt).
Proof.
  intros H. destruct (run_ok_inv S3 w H) as (f & t & Hf & Ht & Hm).
  unfold main_flow in Ht.
  destruct (s3_config f) as [e|bucket] eqn:Hc; [done|].
  injection Ht as <-. by exists f, bucket.
Qed.

(** ** Waiting *)

Lemma without_wait_flow j f t b :
  main_flow j f = inr t -> without_wait (t ++ waiting b)%list = t.
Proof.
  destruct j; cbn.
  - destruct (firehose_config f) as [e|c]; [done|]. intros [= <-]. by destruct b.
  - destruct (s3_config f) as [e|c]; [done|]. intros [= <-]. by destruct b.
Qed.

Lemma flow_ends_with_insert j f t :
  main_flow j f = inr t -> ∃ ins, last t = Some (ExecuteSql (InsertInto ins)).
Proof.
  destruct j; cbn.
  - destruct (firehose_config f) as [e|c]; [done|]. intros [= <-]. by eexists.
  - destruct (s3_config f) as [e|c]; [done|]. intros [= <-]. by eexists.
Qed.

(** C8, as the code has it: in a run that gets through the
    configuration, [main] waits exactly when the job is in local mode;
    the wait is its last call, and without it [main] returns right after
    submitting the INSERT.  The branch changes nothing else: with the
    same properties file, the other calls of [main] are the same in
    local mode and on a cluster. *)
Theorem wait_only_in_local_mode (j : job) (w : world) :
  raised (run_of j w) = None ->
  (blocks (run_of j w) = true ↔ is_local_of j w = true) ∧
  (main_of j w).1 = (without_wait (main_of j w).1 ++ waiting (is_local_of j w))%list ∧
  (∃ ins, last (without_wait (main_of j w).1) = Some (ExecuteSql (InsertInto ins))) ∧
  ∀ w',
    files w' !! properties_path j w' = files w !! properties_path j w ->
    without_wait (main_of j w').1 = without_wait (main_of j w).1.
Proof.
  intros H. destruct (run_ok_inv j w H) as (f & t & Hf & Ht & Hm).
  pose proof (main_flow_statements j f t Ht) as [_ Hnw].
  split; [|split; [|split]].
  - unfold blocks. rewrite run_split. cbn [fst].
    rewrite Hm. cbn [fst]. rewrite !existsb_app, module_level_no_wait, Hnw.
    by destruct (is_local_of j w).
  - rewrite Hm. cbn [fst]. by rewrite (without_wait_flow j f t _ Ht).
  - rewrite Hm. cbn [fst]. rewrite (without_wait_flow j f t _ Ht).
    by apply (flow_ends_with_insert j f).
  - intros w' Hf'. rewrite Hm, (main_cases j w'), Hf', Hf, Ht. cbn [fst].
    by rewrite !(without_wait_flow j f t _ Ht).
Qed.

Lemma wait_only_in_local_mode_witness :
  raised (run_of S3 (laptop [bucket_group])) = None ∧
  raised (run_of S3 (cluster [bucket_group])) = None ∧
  blocks (run_of S3 (laptop [bucket_group])) = true ∧
  blocks (run_of S3 (cluster [bucket_group])) = false ∧
  without_wait (main_of S3 (cluster [bucket_group])).1
  = without_wait (main_of S3 (laptop [bucket_group])).1.
Proof.
  assert (Hl : raised (run_of S3 (laptop [bucket_group])) = None) by reflexivity.
  assert (Hc : raised (run_of S3 (cluster [bucket_group])) = None) by reflexivity.
  pose proof (wait_only_in_local_mode S3 (laptop [bucket_group]) Hl)
    as (Hb & _ & _ & Hsame).
  pose proof (wait_only_in_local_mode S3 (cluster [bucket_group]) Hc)
    as (Hb' & _).
  split; [exact Hl|]. split; [exact Hc|]. split; [|split].
  - apply Hb. reflexivity.
  - destruct (blocks (run_of S3 (cluster [bucket_group]))); [|reflexivity].
    discriminate (proj1 Hb' eq_refl).
  - apply Hsame. reflexivity.
Defined.

(** C8 as it is stated fails for a run that stops at the configuration:
    in local mode without a properties file the Firehose job is local
    and never waits. *)
Lemma local_run_without_file_does_not_block :
  is_local_of Firehose laptop_without_file = true ∧
  blocks (run_of Firehose laptop_without_file) = false ∧
  ¬ (blocks (run_of Firehose laptop_without_file) = true
     ↔ is_local_of Firehose laptop_without_file = true).
Proof.
  split; [reflexivity|]. split; [reflexivity|].
  intros [_ H]. discriminate (H eq_refl).
Qed.

(** ** Where the tunables come from *)

Lemma setting_run_firehose w key :
  raised (run_of Firehose w) = None ->
  bool_decide (key = "pipeline.jars") = false ->
  setting key (run_of Firehose w).1 = None.
Proof.
  intros H Hk. destruct (firehose_ok_inv w H) as (f & name & region & _ & _ & Hm).
  rewrite run_split, Hm. cbn [fst module_level_of is_local_of].
  unfold FirehoseSink.module_level.
  destruct (FirehoseSink.is_local w); cbn; [|done].
  destruct (bool_decide ("pipeline.jars" = key)) eqn:E; [|done].
  apply bool_decide_eq_true in E. subst key. done.
Qed.

Lemma setting_run_s3 w :
  raised (run_of S3 w) = None ->
  setting "execution.checkpointing.mode" (run_of S3 w).1
  = (if is_local_of S3 w then Some "EXACTLY_ONCE" else None) ∧
  setting "execution.checkpointing.interval" (run_of S3 w).1
  = (if is_local_of S3 w then Some "1 min" else None).
Proof.
  intros H. destruct (s3_ok_inv w H) as (f & bucket & _ & _ & Hm).
  rewrite run_split, Hm. cbn [fst module_level_of is_local_of].
  unfold S3Sink.module_level. by destruct (S3Sink.is_local w).
Qed.

(** The commit delay of the S3 sink is the literal of the script in
    every run that declares the sink. *)
Lemma commit_delay_literal w v :
  sink_option S3 "sink.partition-commit.delay" w = Some v -> v = [Lit "1 min"].
Proof.
  unfold sink_option, sink_table, flow_of. rewrite statements_run.
  destruct (files w !! properties_path S3 w) as [f|]; [|done].
  unfold main_flow. destruct (s3_config f) as [e|bucket]; [done|].
  cbn. by intros [= <-].
Qed.

(** C2, as the code has it: in a run that defines its flow, the
    delivery-stream name and region of the Firehose sink and the bucket
    of the S3 sink are the values read from the property groups.  The
    rest of the S3 path, the commit delay, and the checkpointing mode
    and interval are literals of the script: the two checkpointing keys
    are set in local mode only, by the S3 job only, and the Firehose job
    never sets them. *)
Theorem tunables_from_properties_or_literals (j : job) (w : world) :
  raised (run_of j w) = None ->
  match j with
  | Firehose =>
      ∃ props group name region,
        files w !! properties_path Firehose w = Some (Json props) ∧
        property_map_of Firehose props "OutputDeliveryStream0" = inr group ∧
        subscript group "stream.name" = inr name ∧
        subscript group "aws.region" = inr region ∧
        sink_option Firehose "delivery-stream" w = Some [Fmt name] ∧
        sink_option Firehose "aws.region" w = Some [Fmt region] ∧
        setting "execution.checkpointing.mode" (run_of Firehose w).1 = None ∧
        setting "execution.checkpointing.interval" (run_of Firehose w).1 = None
  | S3 =>
      ∃ props group bucket,
        files w !! properties_path S3 w = Some (Json props) ∧
        property_map_of S3 props "bucket" = inr group ∧
        subscript group "name" = inr bucket ∧
        sink_option S3 "path" w
        = Some [Lit "s3a://"; Fmt bucket; Lit "/pyflinkl-filesink-example-output/"] ∧
        sink_option S3 "sink.partition-commit.delay" w = Some [Lit "1 min"] ∧
        setting "execution.checkpointing.mode" (run_of S3 w).1
        = (if is_local_of S3 w then Some "EXACTLY_ONCE" else None) ∧
        setting "execution.checkpointing.interval" (run_of S3 w).1
        = (if is_local_of S3 w then Some "1 min" else None)
  end.
Proof.
  intros H. destruct j.
  - destruct (firehose_ok_inv w H) as (f & name & region & Hf & Hc & _).
    destruct (firehose_config_inv f name region Hc) as (props & group & -> & Hg & Hn & Hr).
    exists props, group, name, region.
    unfold sink_option, sink_table. rewrite (firehose_flow_of w _ name region Hf Hc).
    repeat split; try done; by apply setting_run_firehose.
  - destruct (s3_ok_inv w H) as (f & bucket & Hf & Hc & _).
    destruct (s3_config_inv f bucket Hc) as (props & group & -> & Hg & Hb).
    exists props, group, bucket.
    unfold sink_option, sink_table. rewrite (s3_flow_of w _ bucket Hf Hc).
    destruct (setting_run_s3 w H) as [Hmode Hint].
    repeat split; done.
Qed.

Lemma tunables_from_properties_or_literals_witness :
  raised (run_of S3 (cluster [bucket_group])) = None ∧
  sink_option S3 "path" (cluster [bucket_group])
  = Some [Lit "s3a://"; Fmt (PStr "my-bucket"); Lit "/pyflinkl-filesink-example-output/"] ∧
  sink_option S3 "sink.partition-commit.delay" (cluster [bucket_group])
  = Some [Lit "1 min"] ∧
  setting "execution.checkpointing.interval" (run_of S3 (cluster [bucket_group])).1 = None.
Proof.
  assert (H : raised (run_of S3 (cluster [bucket_group])) = None) by reflexivity.
  destruct (tunables_from_properties_or_literals S3 (cluster [bucket_group]) H)
    as (props & group & bucket & _ & _ & _ & _ & Hd & _ & Hi).
  split; [exact H|]. split; [reflexivity|]. split; [exact Hd | exact Hi].
Defined.

(** C2 as it is stated fails for the commit delay: no two deployments
    give the S3 sink two different commit delays. *)
Lemma commit_delay_is_not_configured :
  ¬ can_be_configured (sink_option S3 "sink.partition-commit.delay").
Proof.
  intros (w1 & w2 & a & b & Ha & Hb & Hne).
  apply commit_delay_literal in Ha, Hb. congruence.
Qed.

(** * More of the scripts *)

(** ** [property_map] on arbitrary values *)

Lemma loops_agree items id :
  S3Sink.property_map_loop items id = FirehoseSink.property_map_loop items id.
Proof.
  induction items as [|x items IH]; [done|]. cbn.
  destruct (subscript x "PropertyGroupId") as [e|v]; [done|]. cbn.
  by destruct (eq_str v id).
Qed.

(** X1: the two scripts carry the same [property_map]: on every value
    and every id the copy in S3Sink/main.py gives what the copy in
    FirehoseSink/main.py gives, exception or value. *)
Theorem property_map_copies_agree (props : pyval) (id : string) :
  S3Sink.property_map props id = FirehoseSink.property_map props id.
Proof.
  unfold S3Sink.property_map, FirehoseSink.property_map.
  destruct (py_iter props) as [e|items]; [done|]. cbn. apply loops_agree.
Qed.

Lemma property_map_of_list j items id :
  property_map_of j (PList items) id = FirehoseSink.property_map_loop items id.
Proof.
  destruct j; cbn; [done|].
  unfold S3Sink.property_map. cbn. apply loops_agree.
Qed.

Lemma passes_over_step id x rest :
  passes_over id x = true ->
  FirehoseSink.property_map_loop (x :: rest) id
  = FirehoseSink.property_map_loop rest id.
Proof.
  unfold passes_over, group_id. destruct x as [| | | | |?|d]; try done.
  cbn. destruct (d !! "PropertyGroupId") as [v|]; [|done]. cbn.
  by destruct (eq_str v id).
Qed.

Lemma loop_past_prefix id pre rest :
  forallb (passes_over id) pre = true ->
  FirehoseSink.property_map_loop (pre ++ rest)%list id
  = FirehoseSink.property_map_loop rest id.
Proof.
  induction pre as [|x pre IH]; [done|]. cbn [forallb app].
  intros [Hx Hpre]%andb_true_iff.
  rewrite <- (IH Hpre). by apply passes_over_step.
Qed.

(** X2: [property_map] returns at the first item whose id is the one
    asked for: after any items with other ids it gives that item's
    [PropertyMap] (or the KeyError of the item having none), and what
    stands after the item is never looked at, well formed or not. *)
Theorem property_map_stops_at_first_match
    (j : job) (pre suf : list pyval) (x : pyval) (id : string) :
  forallb (passes_over id) pre = true ->
  is_match id x = true ->
  property_map_of j (PList (pre ++ x :: suf)) id = subscript x "PropertyMap".
Proof.
  intros Hpre Hx. rewrite property_map_of_list, (loop_past_prefix id pre _ Hpre).
  unfold is_match, group_id in Hx. destruct x as [| | | | |?|d]; try done.
  cbn. destruct (d !! "PropertyGroupId") as [v|]; [|done]. cbn. by rewrite Hx.
Qed.

Lemma property_map_stops_at_first_match_witness :
  property_map_of S3
    (PList [ group_to_py firehose_group; group_to_py bucket_group;
             PInt 7; group_to_py firehose_group ]) "bucket"
  = inr (map_to_py (PropertyMap bucket_group)).
Proof.
  exact (property_map_stops_at_first_match S3
           [group_to_py firehose_group] [PInt 7; group_to_py firehose_group]
           (group_to_py bucket_group) "bucket" eq_refl eq_refl).
Defined.

(** X3: an item without a [PropertyGroupId] (an object lacking the key,
    or a value that is no object) met before any match ends
    [property_map] with the exception of subscripting that item, even
    when a group of the id asked for stands after it. *)
Theorem property_map_fails_at_malformed_item
    (j : job) (pre suf : list pyval) (x : pyval) (id : string) :
  forallb (passes_over id) pre = true ->
  group_id x = None ->
  ∃ e,
    subscript x "PropertyGroupId" = inl e ∧
    property_map_of j (PList (pre ++ x :: suf)) id = inl e ∧
    match x with
    | PDict _ => e = KeyError "PropertyGroupId"
    | PStr _ | PList _ => e = TypeError (BadIndex (type_of x))
    | _ => e = TypeError (NotSubscriptable (type_of x))
    end.
Proof.
  intros Hpre Hx. rewrite property_map_of_list, (loop_past_prefix id pre _ Hpre).
  unfold group_id in Hx. destruct x as [| | | | |?|d]; cbn; try by eexists.
  rewrite Hx. by eexists.
Qed.

Lemma property_map_fails_at_malformed_item_witness :
  property_map_of Firehose
    (PList [ group_to_py bucket_group; PDict ∅; group_to_py firehose_group ])
    "OutputDeliveryStream0"
  = inl (KeyError "PropertyGroupId").
Proof.
  assert (Hx : group_id (PDict ∅) = None) by reflexivity.
  destruct (property_map_fails_at_malformed_item Firehose
              [group_to_py bucket_group] [group_to_py firehose_group]
              (PDict ∅) "OutputDeliveryStream0" eq_refl Hx)
    as (e & _ & Hp & He).
  cbn in He. subst e. exact Hp.
Defined.

Lemma loop_over_strings (keys : list string) id :
  keys ≠ [] ->
  FirehoseSink.property_map_loop (PStr <$> keys) id = inl (TypeError (BadIndex str_t)).
Proof. by destruct keys. Qed.

Lemma chars_nonempty s : s ≠ "" -> ∃ c rest, chars s = PStr c :: rest.
Proof. destruct s; [done|]. cbn. eauto. Qed.

Lemma property_map_scalar v id :
  (∀ s, v ≠ PStr s) -> (∀ items, v ≠ PList items) -> (∀ d, v ≠ PDict d) ->
  FirehoseSink.property_map v id = inl (TypeError (NotIterable (type_of v))).
Proof.
  intros Hs Hl Hd. destruct v as [| | | |s|items|d]; try done.
  - by destruct (Hs s).
  - by destruct (Hl items).
  - by destruct (Hd d).
Qed.

Lemma property_map_string s id :
  FirehoseSink.property_map (PStr s) id
  = if bool_decide (s = "") then inr PNone else inl (TypeError (BadIndex str_t)).
Proof.
  unfold FirehoseSink.property_map. cbn.
  case_bool_decide as Hs; [by subst s|].
  by destruct (chars_nonempty s Hs) as (c & rest & ->).
Qed.

Lemma property_map_object d id :
  FirehoseSink.property_map (PDict d) id
  = if bool_decide (size d = 0) then inr PNone else inl (TypeError (BadIndex str_t)).
Proof.
  unfold FirehoseSink.property_map. cbn. case_bool_decide as Hd.
  - apply map_size_empty_iff in Hd. subst d. by rewrite map_to_list_empty.
  - apply loop_over_strings. intros E. apply fmap_nil_inv in E.
    apply map_to_list_empty_iff in E. subst d. by rewrite map_size_empty in Hd.
Qed.

Lemma property_map_of_firehose j v id :
  property_map_of j v id = FirehoseSink.property_map v id.
Proof. destruct j; [done | apply property_map_copies_agree]. Qed.

(** X4: what [property_map] does with a value that is no list of
    groups.  A list, an object or a string that is empty gives [None]
    for every id, with no exception; an object or a string that is not
    empty ends on subscripting its first key or character, a string;
    [None], a boolean and a number cannot be iterated. *)
Theorem property_map_without_groups (j : job) (v : pyval) (id : string) :
  match v with
  | PList [] => property_map_of j v id = inr PNone
  | PList _ => True
  | PDict d =>
      property_map_of j v id
      = if bool_decide (size d = 0) then inr PNone
        else inl (TypeError (BadIndex str_t))
  | PStr s =>
      property_map_of j v id
      = if bool_decide (s = "") then inr PNone
        else inl (TypeError (BadIndex str_t))
  | _ => property_map_of j v id = inl (TypeError (NotIterable (type_of v)))
  end.
Proof.
  rewrite property_map_of_firehose.
  destruct v as [| | | |s|items|d]; try by apply property_map_scalar.
  - apply property_map_string.
  - by destruct items.
  - apply property_map_object.
Qed.

(** ** Runs on unusable properties *)

Lemma unusable_flow j f e : unusable f = Some e -> main_flow j f = inl e.
Proof.
  intros H.
  assert (Hc : ∀ k, (props ← json_loads f;
                     group ← FirehoseSink.property_map props (required_group j);
                     subscript group k) = inl e).
  { intros k. destruct f as [v| |e']; [|by injection H as <-..].
    cbn -[FirehoseSink.property_map].
    destruct v as [| | | |s|items|d]; cbn in H.
    1-4: by injection H as <-.
    - rewrite property_map_string. by case_bool_decide; injection H as <-.
    - destruct items; [by injection H as <- | done].
    - rewrite property_map_object. by case_bool_decide; injection H as <-. }
  destruct j; cbn [main_flow required_group] in *.
  - unfold firehose_config. specialize (Hc "stream.name").
    destruct (json_loads f) as [e'|props]; [by injection Hc as <-|].
    cbn -[FirehoseSink.property_map] in Hc |- *.
    destruct (FirehoseSink.property_map props _) as [e'|group];
      [by injection Hc as <-|].
    cbn -[subscript] in Hc |- *. by rewrite Hc.
  - unfold s3_config. specialize (Hc "name").
    destruct (json_loads f) as [e'|props]; [by injection Hc as <-|].
    cbn -[FirehoseSink.property_map S3Sink.property_map] in Hc |- *.
    rewrite property_map_copies_agree.
    destruct (FirehoseSink.property_map props _) as [e'|group];
      [by injection Hc as <-|].
    cbn -[subscript] in Hc |- *. by rewrite Hc.
Qed.

(** X5: a properties file that is there but holds no list of groups
    ends the run before [main] makes any call, with status 1 and no
    statement submitted: on JSONDecodeError when the text is not JSON,
    on the TypeError of iterating a scalar when it holds [null], a
    boolean or a number, on subscripting a string when it holds an
    object or string that is not empty, and, when it holds an empty
    list, object or string, on subscripting [None] as when the group is
    absent. *)
Theorem unusable_properties_end_run (j : job) (w : world) (f : file) (e : exn) :
  files w !! properties_path j w = Some f ->
  unusable f = Some e ->
  run_of j w = ((module_level_of j w).1, inl e) ∧
  exit_status (run_of j w) = 1%Z ∧
  statements (run_of j w).1 = [].
Proof.
  intros Hf He.
  assert (Hm : main_of j w = ([], inl e)).
  { by rewrite main_cases, Hf, (unusable_flow j f e He). }
  destruct (run_failed j w e) as (Hs & Hq & _); [by rewrite Hm|].
  split; [|done]. by rewrite run_split, Hm, app_nil_r.
Qed.

Lemma unusable_properties_end_run_witness :
  run_of S3 (add_file "/etc/flink/application_properties.json" (Json (PDict ∅))
               (cluster []))
  = ([], inl (TypeError (NotSubscriptable NoneType))) ∧
  run_of Firehose (add_file "application_properties.json" NotJson laptop_without_file)
  = ((module_level_of Firehose laptop_without_file).1, inl JSONDecodeError).
Proof.
  split.
  - exact (proj1 (unusable_properties_end_run S3
                    (add_file "/etc/flink/application_properties.json"
                       (Json (PDict ∅)) (cluster []))
                    (Json (PDict ∅)) _ eq_refl eq_refl)).
  - exact (proj1 (unusable_properties_end_run Firehose
                    (add_file "application_properties.json" NotJson laptop_without_file)
                    NotJson _ eq_refl eq_refl)).
Defined.

(** ** The calls of a run, by kind *)

Lemma logged_app (t u : trace) : logged (t ++ u)%list = (logged t ++ logged u)%list.
Proof. apply omap_app. Qed.

Lemma settings_app (t u : trace) :
  settings (t ++ u)%list = (settings t ++ settings u)%list.
Proof. apply omap_app. Qed.

Lemma main_flow_shape j f t :
  main_flow j f = inr t ->
  ∃ msg source sink ins,
    t = [LogInfo msg; ExecuteSql (CreateTable source);
         ExecuteSql (CreateTable sink); ExecuteSql (InsertInto ins)] ∧
    well_formed_flow source sink ins = true.
Proof.
  destruct j; cbn.
  - destruct (firehose_config f) as [e|c]; [done|]. intros [= <-].
    by eexists _, _, _, _.
  - destruct (s3_config f) as [e|c]; [done|]. intros [= <-].
    by eexists _, _, _, _.
Qed.

Lemma module_level_logged j w : logged (module_level_of j w).1 = [].
Proof.
  destruct j; cbn.
  - unfold FirehoseSink.module_level. by destruct (FirehoseSink.is_local w).
  - unfold S3Sink.module_level. by destruct (S3Sink.is_local w).
Qed.

Lemma main_flow_inv j f t :
  main_flow j f = inr t ->
  ∃ props group msg rest,
    f = Json props ∧
    property_map_of j props (required_group j) = inr group ∧
    Forall (fun k => ∃ v, subscript group k = inr v) (required_keys j) ∧
    t = LogInfo msg :: rest.
Proof.
  destruct j; cbn [main_flow required_group required_keys property_map_of].
  - destruct (firehose_config f) as [e|[name region]] eqn:Hc; [done|].
    cbn. intros [= <-].
    destruct (firehose_config_inv f name region Hc) as (props & group & -> & Hg & Hn & Hr).
    eexists props, group, _, _.
    split; [done|]. split; [exact Hg|]. split; [|reflexivity].
    repeat constructor; by eexists.
  - destruct (s3_config f) as [e|bucket] eqn:Hc; [done|].
    cbn. intros [= <-].
    destruct (s3_config_inv f bucket Hc) as (props & group & -> & Hg & Hb).
    eexists props, group, _, _.
    split; [done|]. split; [exact Hg|]. split; [|reflexivity].
    repeat constructor; by eexists.
Qed.

(** X6: [main] reads all of its configuration before its first call on
    the logger or the engine.  Whenever a run has logged or submitted
    anything, the properties file was read, the group was found and
    every key [main] reads was there, and the logged message is the
    first call of [main].  A run that ends without an exception has
    logged one message and submitted exactly three statements, in this
    order: the source table, the sink table, and the INSERT from the
    first into the second. *)
Theorem calls_follow_configuration (j : job) (w : world) :
  (logged (run_of j w).1 ≠ [] ∨ statements (run_of j w).1 ≠ [] ->
   ∃ props group msg rest,
     files w !! properties_path j w = Some (Json props) ∧
     property_map_of j props (required_group j) = inr group ∧
     Forall (fun k => ∃ v, subscript group k = inr v) (required_keys j) ∧
     (main_of j w).1 = LogInfo msg :: rest) ∧
  (raised (run_of j w) = None ->
   ∃ msg source sink ins,
     logged (run_of j w).1 = [msg] ∧
     statements (run_of j w).1
     = [CreateTable source; CreateTable sink; InsertInto ins] ∧
     ins_from ins = tbl_name source ∧
     ins_into ins = tbl_name sink).
Proof.
  split.
  - rewrite run_split. cbn [fst].
    rewrite logged_app, statements_app, module_level_logged, module_level_statements.
    rewrite main_cases. cbn [app].
    destruct (files w !! properties_path j w) as [f|]; [|by intros [H|H]].
    destruct (main_flow j f) as [e|t] eqn:Ht; [by intros [H|H]|]. intros _.
    destruct (main_flow_inv j f t Ht) as (props & group & msg & rest & -> & Hg & Hk & ->).
    exists props, group, msg, (rest ++ waiting (is_local_of j w))%list.
    by repeat split.
  - intros Hr. destruct (run_ok_inv j w Hr) as (f & t & Hf & Ht & Hm).
    destruct (main_flow_shape j f t Ht) as (msg & source & sink & ins & -> & Hwf).
    exists msg, source, sink, ins.
    rewrite run_split, Hm. cbn [fst].
    rewrite logged_app, statements_app, module_level_logged, module_level_statements.
    unfold well_formed_flow in Hwf. rewrite !andb_true_iff in Hwf.
    destruct Hwf as (((((((_ & _) & Hfrom) & Hinto) & _) & _) & _) & _).
    apply bool_decide_eq_true in Hfrom, Hinto.
    repeat split; try done; by destruct (is_local_of j w).
Qed.

Lemma calls_follow_configuration_witness :
  statements (run_of S3 (cluster [bucket_group])).1 ≠ [] ∧
  raised (run_of S3 (cluster [bucket_group])) = None ∧
  (∃ props group,
     files (cluster [bucket_group]) !! properties_path S3 (cluster [bucket_group])
     = Some (Json props) ∧
     property_map_of S3 props "bucket" = inr group) ∧
  ∃ msg source sink ins,
    logged (run_of S3 (cluster [bucket_group])).1 = [msg] ∧
    statements (run_of S3 (cluster [bucket_group])).1
    = [CreateTable source; CreateTable sink; InsertInto ins].
Proof.
  assert (Hq : statements (run_of S3 (cluster [bucket_group])).1 ≠ []) by discriminate.
  assert (Hr : raised (run_of S3 (cluster [bucket_group])) = None) by reflexivity.
  destruct (calls_follow_configuration S3 (cluster [bucket_group])) as [Hcalls Hok].
  destruct (Hcalls (or_intror Hq)) as (props & group & msg & rest & Hf & Hg & _ & _).
  destruct (Hok Hr) as (msg' & source & sink & ins & Hl & Hs & _ & _).
  split; [exact Hq|]. split; [exact Hr|]. split.
  - exists props, group. split; [exact Hf | exact Hg].
  - exists msg', source, sink, ins. split; [exact Hl | exact Hs].
Defined.

Lemma module_level_mode j w :
  module_level_of j w
  = if is_local_of j w then
      ((SetString "pipeline.jars"
          ("file:///" +:+ script_dir w +:+ "/target/pyflink-dependencies.jar")
        :: Print ("PyFlink home: " +:+ pyflink_dir w)
        :: Print ("Logging directory: " +:+ pyflink_dir w +:+ "/log")
        :: match j with
           | Firehose => []
           | S3 => [ SetString "execution.checkpointing.mode" "EXACTLY_ONCE";
                     SetString "execution.checkpointing.interval" "1 min" ]
           end)%list, inr tt)
    else ([], inr tt).
Proof.
  destruct j; cbn.
  - unfold FirehoseSink.module_level. by destruct (FirehoseSink.is_local w).
  - unfold S3Sink.module_level. by destruct (S3Sink.is_local w).
Qed.

(** ** Calls other than SQL *)

Lemma printed_waiting b : printed (waiting b) = [].
Proof. by destruct b. Qed.

Lemma settings_waiting b : settings (waiting b) = [].
Proof. by destruct b. Qed.

Lemma main_settings_printed j w :
  settings (main_of j w).1 = [] ∧
  printed (main_of j w).1
  = match files w !! properties_path j w with
    | None => [not_found_line (properties_path j w)]
    | Some _ => []
    end.
Proof.
  rewrite main_cases. destruct (files w !! properties_path j w) as [f|]; [|done].
  destruct (main_flow j f) as [e|t] eqn:Ht; [done|]. cbn [fst].
  destruct (main_flow_shape j f t Ht) as (msg & source & sink & ins & -> & _).
  by rewrite settings_app, printed_app, settings_waiting, printed_waiting.
Qed.

(** X9: what a run does besides SQL and logging, whether or not it ends
    well.  On a cluster it writes nothing to the table configuration;
    in local mode it sets pipeline.jars to the jar under the script's
    directory, and the S3 job also sets the checkpointing mode and
    interval, all before the properties are read: the calls of a run
    are those of the module-level code followed by those of [main], and
    [main], which reads the properties, sets nothing.  It prints the
    two PyFlink directories in local mode, and the line about the
    missing file when there is none; nothing else is ever printed or
    set. *)
Theorem settings_and_console (j : job) (w : world) :
  settings (run_of j w).1
  = (if is_local_of j w then
       ("pipeline.jars",
        "file:///" +:+ script_dir w +:+ "/target/pyflink-dependencies.jar")
       :: match j with
          | Firehose => []
          | S3 => [ ("execution.checkpointing.mode", "EXACTLY_ONCE");
                    ("execution.checkpointing.interval", "1 min") ]
          end
     else []) ∧
  printed (run_of j w).1
  = ((if is_local_of j w then
        [ "PyFlink home: " +:+ pyflink_dir w;
          "Logging directory: " +:+ pyflink_dir w +:+ "/log" ]
      else [])
     ++ match files w !! properties_path j w with
        | None => [not_found_line (properties_path j w)]
        | Some _ => []
        end)%list ∧
  (run_of j w).1 = ((module_level_of j w).1 ++ (main_of j w).1)%list ∧
  settings (main_of j w).1 = [].
Proof.
  destruct (main_settings_printed j w) as [Hs Hp].
  split; [|split; [|split; [by rewrite run_split | done]]].
  - rewrite run_split. cbn [fst].
    rewrite settings_app, Hs, app_nil_r, module_level_mode.
    by destruct (is_local_of j w), j.
  - rewrite run_split. cbn [fst].
    rewrite printed_app, Hp, module_level_mode.
    by destruct (is_local_of j w), j.
Qed.

(** ** The flow fits its tables *)





(** ** Reading the properties file *)

Lemma get_application_properties_cases j w :
  get_application_properties_of j w
  = match files w !! properties_path j w with
    | None => ([Print (not_found_line (properties_path j w))], inr PNone)
    | Some f => ([], json_loads f)
    end.
Proof.
  destruct j; cbn;
    unfold FirehoseSink.get_application_properties,
           S3Sink.get_application_properties;
    by destruct (files w !! _).
Qed.

(** X11: [get_application_properties] raises nothing for a missing
    file: it prints one line and returns [None].  With a file it prints
    nothing, and gives what the text parses to or raises what reading
    the file raised.  So its caller gets [None] both for a missing file
    and for a file that holds [null]; [main] then ends on the same
    TypeError of iterating [None] in both cases, and the printed line
    alone tells them apart. *)
Theorem get_application_properties_none (j : job) (w : world) :
  ((get_application_properties_of j w).2 = inr PNone ↔
     files w !! properties_path j w = None ∨
     files w !! properties_path j w = Some (Json PNone)) ∧
  ((get_application_properties_of j w).1
   = match files w !! properties_path j w with
     | None => [Print (not_found_line (properties_path j w))]
     | Some _ => []
     end) ∧
  (∀ e, (get_application_properties_of j w).2 = inl e ->
        ∃ f, files w !! properties_path j w = Some f ∧ json_loads f = inl e) ∧
  ((get_application_properties_of j w).2 = inr PNone ->
   (main_of j w).2 = inl (TypeError (NotIterable NoneType)) ∧
   (main_of j w).1 = (get_application_properties_of j w).1).
Proof.
  rewrite get_application_properties_cases, main_cases.
  destruct (files w !! properties_path j w) as [f|]; cbn.
  - split; [|split; [done | split]].
    + split; [|intros [[=]|[= ->]]; done].
      destruct f as [v| |e]; try done. intros [= ->]. by right.
    + intros e He. by exists f.
    + destruct f as [v| |e]; try done. intros [= ->].
      by rewrite (unusable_flow j (Json PNone) _ eq_refl).
  - split; [|split; [done | split; [by intros e [=] | done]]].
    split; [by left | done].
Qed.

Lemma get_application_properties_none_witness :
  (get_application_properties_of S3
     (add_file "/etc/flink/application_properties.json" (Json PNone) (cluster []))).2
  = inr PNone ∧
  main_of S3
    (add_file "/etc/flink/application_properties.json" (Json PNone) (cluster []))
  = ([], inl (TypeError (NotIterable NoneType))).
Proof.
  assert (H : (get_application_properties_of S3
                 (add_file "/etc/flink/application_properties.json" (Json PNone)
                    (cluster []))).2 = inr PNone) by reflexivity.
  split; [exact H|].
  destruct (get_application_properties_none S3
              (add_file "/etc/flink/application_properties.json" (Json PNone)
                 (cluster [])))
    as (_ & _ & _ & Hmain).
  destruct (Hmain H) as [He Ht].
  destruct (main_of S3 _) as [t r]. cbn in He, Ht. by subst.
Defined.
